(** * connexion.apps.async_app: dispatch and response conversion

    A shallow embedding of [connexion/apps/async_app.py]: the ASGI
    dispatcher [AsyncAsgiApp.asgi_app], the manual route registration
    ([add_url_rule], [route]) and the response conversion of [AsyncApi]
    ([_build_response] and the two conversions around it).

    Python values are an inductive type, exceptions are a sum in the
    result, and the effects of a request (calls into sub-applications,
    operations, the router, and responses sent on the ASGI channel) are
    logged in an event trace that is threaded through a small monad. *)

From Stdlib Require Import ZArith String Strings.Byte Bool List Lia.
From stdpp Require Import base option list strings pretty gmap fin_maps.

Set Warnings "-register-all".
Open Scope string_scope.

Abbreviation bytes := (list Byte.byte).

(** ** Python values and exceptions *)

Module Py.

(** The exceptions this module raises or lets through.
    [MissingMiddleware] and [ProblemException], the base class of
    [MissingAsyncOperation], are declared in connexion.exceptions; of a
    [ProblemException] the model keeps the arguments of its constructor,
    the status first, as [MissingAsyncOperation.__init__] passes them. *)
Inductive Exception :=
| KeyError (key : string)
| TypeError (msg : string)
| AttributeError (msg : string)
| MissingMiddleware (msg : string)
| MissingAsyncOperation (status : Z) (args : list string)
| HandlerError (name : string).

Inductive Result (A : Type) :=
| Ok (a : A)
| Raise (e : Exception).
Arguments Ok {A} a.
Arguments Raise {A} e.

#[export] Instance result_ret : MRet Result := fun _ a => Ok a.
#[export] Instance result_bind : MBind Result := fun _ _ f m =>
  match m with
  | Ok a => f a
  | Raise e => Raise e
  end.

#[export] Instance result_fmap : FMap Result := fun _ _ f m =>
  match m with
  | Ok a => Ok (f a)
  | Raise e => Raise e
  end.

Definition is_ok {A} (r : Result A) : bool :=
  match r with Ok _ => true | Raise _ => false end.

(** [a or b] on optional strings: [None] and the empty string are falsy. *)
Definition truthy (a : option string) : bool :=
  match a with
  | Some s => negb (String.eqb s "")
  | None => false
  end.

Definition py_or (a b : option string) : option string :=
  if truthy a then a else b.

End Py.
Export Py.

(** ** starlette.responses *)

Module Starlette.

Definition Headers := list (string * string).

(** The response classes that reach this module.  [MiddlewareResponse]
    (connexion.lifecycle) is a Starlette streaming response. *)
Inductive ResponseClass :=
| StarletteResponse
| StarletteJSONResponse
| StarletteStreamingResponse
| StarletteFileResponse
| MiddlewareResponse.

#[export] Instance ResponseClass_eq_dec : EqDecision ResponseClass.
Proof. solve_decision. Defined.

(** A response object is its class and the arguments its constructor
    received; the attributes read by the conversion are functions of
    these (below). *)
Record Response (V : Type) := mkResponse {
  response_cls : ResponseClass;
  content : V;
  init_status_code : option Z;
  init_media_type : option string;
  init_headers : option Headers
}.
Arguments mkResponse {V}.
Arguments response_cls {V}.
Arguments content {V}.
Arguments init_status_code {V}.
Arguments init_media_type {V}.
Arguments init_headers {V}.

(** [isinstance(r, starlette.responses.Response)]: every class above. *)
Definition isinstance_StarletteResponse (c : ResponseClass) : bool := true.

Definition isinstance_MiddlewareResponse (c : ResponseClass) : bool :=
  bool_decide (c = MiddlewareResponse).

(** The class attribute [media_type]. *)
Definition class_media_type (c : ResponseClass) : option string :=
  match c with
  | StarletteJSONResponse => Some "application/json"
  | _ => None
  end.

(** [hasattr(response, "body")]: [Response.__init__] sets [body], the
    streaming and file responses do not call it. *)
Definition has_body (c : ResponseClass) : bool :=
  match c with
  | StarletteResponse | StarletteJSONResponse => true
  | _ => false
  end.

End Starlette.
Export Starlette.

(** ** connexion.lifecycle.ConnexionResponse *)

Module Lifecycle.

(** Modelled from the spec: the class [ConnexionResponse] is declared in
    connexion.lifecycle, not in async_app.py.  It is the canonical
    response of the data model, a record of status code, mimetype,
    content type, headers and body, under the names of the keyword
    arguments [_framework_to_connexion_response] passes and of the
    attributes [_connexion_to_framework_response] reads.  The fields
    hold whatever Python value they are given, [None] included. *)
Record ConnexionResponse (V : Type) := mkConnexionResponse {
  status_code : option Z;
  mimetype : option string;
  content_type : option string;
  headers : option Headers;
  body : V
}.
Arguments mkConnexionResponse {V}.
Arguments status_code {V}.
Arguments mimetype {V}.
Arguments content_type {V}.
Arguments headers {V}.
Arguments body {V}.

End Lifecycle.
Export Lifecycle.

(** ** Values *)

(** A coroutine object is represented by what awaiting it gives: a value
    (possibly another coroutine) or an exception.  The type is inductive,
    so every chain of nested coroutines is finite. *)
Inductive Value :=
| VNone
| VBool (b : bool)
| VInt (z : Z)
| VStr (s : string)
| VBytes (b : bytes)
| VList (items : list Value)
| VTuple (items : list Value)
| VDict (items : list (string * Value))
| VResponse (r : Response Value)
| VConnexionResponse (c : ConnexionResponse Value)
| VCoroutine (c : Awaited)
with Awaited :=
| Returns (v : Value)
| Raises (e : Exception).

Definition isinstance_str (v : Value) : bool :=
  match v with VStr _ => true | _ => false end.
Definition isinstance_bytes (v : Value) : bool :=
  match v with VBytes _ => true | _ => false end.
Definition isinstance_dict (v : Value) : bool :=
  match v with VDict _ => true | _ => false end.
Definition isinstance_list (v : Value) : bool :=
  match v with VList _ => true | _ => false end.

(** [asyncio.iscoroutine] *)
Definition iscoroutine (v : Value) : bool :=
  match v with VCoroutine _ => true | _ => false end.

(** [n] coroutine layers around [v]. *)
Fixpoint nest (n : nat) (v : Value) : Value :=
  match n with
  | O => v
  | S n' => VCoroutine (Returns (nest n' v))
  end.

(** ** Collaborators outside this module *)

(** [AbstractAPI._prepare_body_and_status_code]: the body and status
    normalization; it returns the resolved [(data, status_code,
    serialized_mimetype)] or raises. *)
Class BodyNormalizer := _prepare_body_and_status_code :
  Value -> option string -> option Z -> Result (Value * option Z * option string).

(** [AbstractAPI._get_response]: turns a concrete handler result into a
    framework response. *)
Class ResponseGetter := _get_response :
  Value -> option string -> Result Value.

(** What Starlette computes when a response object is built: the JSON
    encoding of [JSONResponse.render] and the header list of
    [Response.init_headers]. *)
Class StarletteRuntime := {
  json_dumps : Value -> Result bytes;
  make_headers : ResponseClass -> option Headers -> bytes -> option string -> option Z -> Headers
}.

(** [connexion.middleware.routing.ROUTING_CONTEXT], the key of the routing
    context among the scope's extensions. *)
Class RoutingKey := ROUTING_CONTEXT : string.

(** ** Building Starlette responses *)

Section Responses.
Context {runtime : StarletteRuntime}.

(** [Response.render] and [JSONResponse.render]. *)
Definition render (cls : ResponseClass) (content : Value) : Result bytes :=
  match cls with
  | StarletteJSONResponse => json_dumps content
  | _ =>
    match content with
    | VNone => Ok []
    | VBytes b => Ok b
    | VStr s => Ok (list_byte_of_string s)
    | _ => Raise (AttributeError "object has no attribute 'encode'")
    end
  end.

(** [response_cls(content=, status_code=, media_type=, headers=)]: the
    constructor renders the body, so it raises when rendering does. *)
Definition new_response (cls : ResponseClass) (content : Value)
    (status_code : option Z) (media_type : option string)
    (headers : option Headers) : Result (Response Value) :=
  _ ← render cls content;
  Ok (mkResponse cls content status_code media_type headers).

(** The attributes [status_code], [media_type], [body], [headers]. *)
Definition attr_status_code (r : Response Value) : option Z :=
  init_status_code r.

Definition attr_media_type (r : Response Value) : option string :=
  match init_media_type r with
  | Some m => Some m
  | None => class_media_type (response_cls r)
  end.

Definition attr_body (r : Response Value) : option bytes :=
  if has_body (response_cls r) then
    match render (response_cls r) (content r) with
    | Ok b => Some b
    | Raise _ => None
    end
  else None.

Definition attr_headers (r : Response Value) : Headers :=
  make_headers (response_cls r) (init_headers r)
    (default [] (attr_body r)) (attr_media_type r) (attr_status_code r).

End Responses.

(** ** AsyncApi: response conversion *)

Section AsyncApi.
Context {runtime : StarletteRuntime} {normalizer : BodyNormalizer}.

Definition _is_framework_response (response : Value) : bool :=
  match response with
  | VResponse r =>
    isinstance_StarletteResponse (response_cls r)
    && negb (isinstance_MiddlewareResponse (response_cls r))
  | _ => false
  end.

Definition _framework_to_connexion_response (response : Response Value)
    (mimetype : option string) : ConnexionResponse Value :=
  let body :=
    match attr_body response with
    | Some b => VBytes b
    | None => VNone
    end in
  {| status_code := attr_status_code response;
     mimetype := mimetype;
     content_type := attr_media_type response;
     headers := Some (attr_headers response);
     body := body |}.

Definition _build_response (data : Value) (mimetype : option string)
    (content_type : option string) (status_code : option Z)
    (headers : option Headers) : Result (Response Value) :=
  if _is_framework_response data then
    Raise (TypeError "Cannot return starlette.responses.Response in tuple. Only raw data can be returned in tuple.")
  else
    '(data, status_code, serialized_mimetype) ←
      _prepare_body_and_status_code data mimetype status_code;
    let content_type := py_or (py_or content_type mimetype) serialized_mimetype in
    let content_type :=
      match content_type with
      | None =>
        if isinstance_str data then Some "text/plain"
        else if isinstance_bytes data then Some "application/octet-stream"
        else None
      | Some _ => content_type
      end in
    let response_cls :=
      if isinstance_dict data || isinstance_list data
      then StarletteJSONResponse else StarletteResponse in
    new_response response_cls data status_code content_type headers.

Definition _connexion_to_framework_response (response : ConnexionResponse Value)
    (mimetype : option string) : Result (Response Value) :=
  _build_response (body response)
    (py_or (Lifecycle.mimetype response) mimetype)
    (content_type response) (status_code response) (headers response).

(** The [while asyncio.iscoroutine(response): response = await response]
    loop of [get_response] and of [asgi_app]; the number of awaits is
    returned next to the outcome. *)
Fixpoint await_all (response : Value) : nat * Result Value :=
  match response with
  | VCoroutine (Returns v) => let '(n, r) := await_all v in (S n, r)
  | VCoroutine (Raises e) => (1%nat, Raise e)
  | v => (O, Ok v)
  end.

Definition get_response {getter : ResponseGetter} (response : Value)
    (mimetype : option string) : Result Value :=
  response ← (await_all response).2;
  _get_response response mimetype.

End AsyncApi.

(** ** Requests, callables and the event trace *)

Record RoutingContext := mkRoutingContext {
  api_base_path : option string;
  operation_id : option string
}.

(** The ASGI scope: [extensions] is [None] when the scope has no
    ["extensions"] key. *)
Record Scope := mkScope {
  method : string;
  path : string;
  extensions : option (gmap string RoutingContext)
}.

(** A Python function: [iscoroutinefunction] tells an [async def] from a
    [def], [code] is what running its body gives. *)
Record Callable := mkCallable {
  __name__ : string;
  iscoroutinefunction : bool;
  code : Scope -> Result Value
}.

(** Calling an [async def] only creates the coroutine. *)
Definition call (f : Callable) (scope : Scope) : Result Value :=
  if iscoroutinefunction f then
    Ok (VCoroutine (match code f scope with
                    | Ok v => Returns v
                    | Raise e => Raises e
                    end))
  else code f scope.

Definition await (v : Value) : Result Value :=
  match v with
  | VCoroutine (Returns v') => Ok v'
  | VCoroutine (Raises e) => Raise e
  | _ => Raise (TypeError "object can't be used in 'await' expression")
  end.

(** What a request makes the application do, in order.  The events of a
    sub-application and of the router are nested in the event of the
    call that delegated to them. *)
Inductive Event :=
| SubApplication (key : string) (inner : list Event)
| OperationCall (key : string)
| Await
| RouterCall (inner : list Event)
| EndpointCall (name : string)
| Send (response : Response Value).

Record Run (A : Type) := mkRun {
  events : list Event;
  outcome : Result A
}.
Arguments mkRun {A}.
Arguments events {A}.
Arguments outcome {A}.

#[export] Instance run_ret : MRet Run := fun _ a => mkRun [] (Ok a).
#[export] Instance run_bind : MBind Run := fun _ _ f m =>
  match outcome m with
  | Ok a => mkRun (events m ++ events (f a)) (outcome (f a))
  | Raise e => mkRun (events m) (Raise e)
  end.

Definition emit (ev : Event) : Run unit := mkRun [ev] (Ok tt).
Definition raise {A} (e : Exception) : Run A := mkRun [] (Raise e).
Definition lift {A} (r : Result A) : Run A := mkRun [] r.

(** [await response(scope, receive, send)]: only response objects are
    callable. *)
Definition call_response (response : Value) : Run Value :=
  match response with
  | VResponse r => _ ← emit (Send r); mret VNone
  | _ => raise (TypeError "object is not callable")
  end.

(** The loop of [await_all], each await logged. *)
Definition await_loop (response : Value) : Run Value :=
  let '(n, r) := await_all response in
  mkRun (replicate n Await) r.

(** ** starlette.routing.Router, with literal paths *)

Record Route := mkRoute {
  route_path : string;
  endpoint : option Callable;
  methods : option (list string);
  name : option string;
  include_in_schema : bool
}.

Record Router := mkRouter { routes : list Route }.

(** Keyword arguments of a call; [None] is an absent keyword. *)
Record Kwargs := mkKwargs {
  kw_endpoint : option (option Callable);
  kw_methods : option (option (list string));
  kw_name : option (option string);
  kw_include_in_schema : option bool
}.

Definition no_kwargs : Kwargs := mkKwargs None None None None.

(** [Router.add_route(path, endpoint, methods=None, name=None,
    include_in_schema=True)] called with [path] and keywords: [endpoint]
    has no default.  The route keeps the arguments as they are bound by
    the call; what Starlette's [Route] derives from them afterwards (a
    name taken from the function, the methods of a function endpoint)
    is not part of this model. *)
Definition Router_add_route (self : Router) (path : string) (kwargs : Kwargs)
    : Result Router :=
  match kw_endpoint kwargs with
  | None =>
    Raise (TypeError "add_route() missing 1 required positional argument: 'endpoint'")
  | Some endpoint =>
    Ok (mkRouter (routes self ++
          [mkRoute path endpoint
             (default None (kw_methods kwargs))
             (default None (kw_name kwargs))
             (default true (kw_include_in_schema kwargs))])%list)
  end.

Definition not_found : Response Value :=
  mkResponse StarletteResponse (VStr "Not Found") (Some 404%Z) (Some "text/plain") None.

(** [Router.__call__]: the first route whose path is the request's runs
    its endpoint and sends the response; no route sends 404.  Paths are
    compared literally and the methods of a route are not checked. *)
Definition Router_call (self : Router) (scope : Scope) : Run Value :=
  match List.find (fun r => String.eqb (route_path r) (path scope)) (routes self) with
  | Some r =>
    match endpoint r with
    | Some f =>
      _ ← emit (EndpointCall (__name__ f));
      response ← lift (if iscoroutinefunction f
                       then c ← call f scope; await c
                       else call f scope);
      call_response response
    | None => raise (TypeError "'NoneType' object is not callable")
    end
  | None => _ ← emit (Send not_found); mret VNone
  end.

(** ** AsyncOperation *)

Module Operation.

(** [fn] is the callable the property of that name returns: the handler
    under the parameter and response decorators. *)
Record AsyncOperation := mkAsyncOperation {
  fn : Callable;
  mimetype : option string;
  operation_id : string;
  pythonic_params : bool
}.

Definition __call__ (self : AsyncOperation) (scope : Scope) : Result Value :=
  if iscoroutinefunction (fn self) then
    c ← call (fn self) scope; await c
  else call (fn self) scope.

End Operation.
Abbreviation AsyncOperation := Operation.AsyncOperation.

(** ** AsyncAsgiApp *)

Inductive AsyncAsgiApp := mkApp {
  apis : gmap string AsyncAsgiApp;
  operations : gmap string AsyncOperation;
  router : Router;
  base_path : string
}.

(** The constructor of [MissingAsyncOperation]: [ProblemException.__init__]
    receives 500 ahead of the arguments given. *)
Definition new_MissingAsyncOperation (args : list string) : Exception :=
  MissingAsyncOperation 500 args.

Section Dispatch.
Context {routing_key : RoutingKey}.

(** [scope["extensions"][ROUTING_CONTEXT]]; [None] is the [KeyError]. *)
Definition routing_context (scope : Scope) : option RoutingContext :=
  ext ← extensions scope; ext !! ROUTING_CONTEXT.

(** The [else] branch of [asgi_app]: the operation named by the routing
    context, the router when there is no name, an error for an unknown
    name. *)
Definition operation_or_route (operations : gmap string AsyncOperation)
    (router : Router) (scope : Scope) (connexion_context : RoutingContext)
    : Run Value :=
  let operation_id := operation_id connexion_context in
  match operation_id ≫= (fun k => operations !! k) with
  | None =>
    match operation_id with
    | None =>
      let r := Router_call router scope in
      mkRun [RouterCall (events r)] (_ ← outcome r; Ok VNone)
    | Some _ =>
      raise (new_MissingAsyncOperation ["Encountered unknown operation_id."])
    end
  | Some operation =>
    _ ← emit (OperationCall (Operation.operation_id operation));
    response ← lift (Operation.__call__ operation scope);
    response ← await_loop response;
    call_response response
  end.

(** The body of [asgi_app].  [called] is [self.apis] with every
    sub-application already applied to this request, so that the
    recursion of [asgi_app] below is structural. *)
Definition dispatch (called : gmap string (Run Value)) (base_path : string)
    (operations : gmap string AsyncOperation) (router : Router)
    (scope : Scope) : Run Value :=
  match routing_context scope with
  | None =>
    raise (MissingMiddleware
      "Could not find routing information in scope. Please make sure you have a routing middleware registered upstream. ")
  | Some connexion_context =>
    let otherwise :=
      operation_or_route operations router scope connexion_context in
    match api_base_path connexion_context with
    | Some key =>
      match called !! key with
      | Some api =>
        if negb (String.eqb key base_path)
        then mkRun [SubApplication key (events api)] (outcome api)
        else otherwise
      | None => otherwise
      end
    | None => otherwise
    end
  end.

(** [asgi_app], and [__call__] which awaits it and returns [None]. *)
Fixpoint asgi_app (self : AsyncAsgiApp) (scope : Scope) : Run Value :=
  dispatch ((fun api => _ ← asgi_app api scope; mret VNone) <$> apis self)
    (base_path self) (operations self) (router self) scope.

Definition __call__ (self : AsyncAsgiApp) (scope : Scope) : Run Value :=
  _ ← asgi_app self scope; mret VNone.

End Dispatch.

(** The condition of the first [if] of [asgi_app]: [api_base_path is not
    None and api_base_path in self.apis and not api_base_path ==
    self.base_path]. *)
Definition delegation_guard (self : AsyncAsgiApp) (connexion_context : RoutingContext)
    : bool :=
  match api_base_path connexion_context with
  | Some key =>
    bool_decide (is_Some (apis self !! key))
    && negb (String.eqb key (base_path self))
  | None => false
  end.

(** The three actions of the dispatcher, read off the events of a run:
    only the events of the dispatching instance itself count, not those
    nested under a delegation. *)
Inductive Action := Delegate | Invoke | FallBack.

Definition action_of (ev : Event) : option Action :=
  match ev with
  | SubApplication _ _ => Some Delegate
  | OperationCall _ => Some Invoke
  | RouterCall _ => Some FallBack
  | _ => None
  end.

Definition actions (r : Run Value) : list Action :=
  omap action_of (events r).

(** ** Registration *)

(** [add_api]: the API object built by [AbstractApp.add_api] is kept
    under its base path. *)
Definition add_api (self api : AsyncAsgiApp) : AsyncAsgiApp :=
  mkApp (<[base_path api := api]> (apis self)) (operations self)
    (router self) (base_path self).

Definition _add_operation_internal (self : AsyncAsgiApp) (method path : string)
    (operation : AsyncOperation) : AsyncAsgiApp :=
  mkApp (apis self) (<[Operation.operation_id operation := operation]> (operations self))
    (router self) (base_path self).

(** The [**options] of [add_url_rule]; [endpoint] and [view_func] are
    named parameters and never among them. *)
Record Options := mkOptions {
  opt_methods : option (option (list string));
  opt_name : option (option string);
  opt_include_in_schema : option bool
}.

Definition no_options : Options := mkOptions None None None.

Definition set_router (self : AsyncAsgiApp) (r : Router) : AsyncAsgiApp :=
  mkApp (apis self) (operations self) r (base_path self).

(** [self.router.add_route(path=rule, endpoint=view_func, name=endpoint,
    **options)]: a second [name] among the options is a [TypeError]. *)
Definition add_url_rule (self : AsyncAsgiApp) (rule : string)
    (endpoint : option string) (view_func : option Callable)
    (options : Options) : Result AsyncAsgiApp :=
  match opt_name options with
  | Some _ =>
    Raise (TypeError "add_route() got multiple values for keyword argument 'name'")
  | None =>
    r ← Router_add_route (router self) rule
          (mkKwargs (Some view_func) (opt_methods options) (Some endpoint)
             (opt_include_in_schema options));
    Ok (set_router self r)
  end.

(** [route(rule, **kwargs)] returns [decorator]; applying it to [func]
    runs [self.router.add_route(rule, **kwargs)] and returns [func]. *)
Definition route (self : AsyncAsgiApp) (rule : string) (kwargs : Kwargs)
    (func : Callable) : Result (AsyncAsgiApp * Callable) :=
  r ← Router_add_route (router self) rule kwargs;
  Ok (set_router self r, func).

(** ** Instances used in the examples *)

(** Modelled from the spec: [AbstractAPI._get_response] is not part of
    async_app.py.  A concrete handler result that is already a native
    response is returned as it is, a [ConnexionResponse] goes through
    [_connexion_to_framework_response], and any other value through the
    build routine with the operation's mimetype. *)
Definition spec_get_response {runtime : StarletteRuntime}
    {normalizer : BodyNormalizer} : ResponseGetter := fun response mimetype =>
  match response with
  | VConnexionResponse c =>
    VResponse <$> _connexion_to_framework_response c mimetype
  | _ =>
    if _is_framework_response response then Ok response
    else VResponse <$> _build_response response mimetype None None None
  end.

(** A normalization step that fills in a missing status code (204 for no
    data, else 200) and hands data and mimetype back unchanged. *)
Definition plain_normalizer : BodyNormalizer := fun data mimetype status_code =>
  match status_code with
  | None =>
    match data with
    | VNone => Ok (data, Some 204%Z, None)
    | _ => Ok (data, Some 200%Z, mimetype)
    end
  | Some _ => Ok (data, status_code, mimetype)
  end.

(** The double quote character, as a string. *)
Definition quote : string := String (Ascii.ascii_of_nat 34) EmptyString.

(** A compact JSON encoder for the serializable values. *)
Fixpoint dumps (v : Value) : option string :=
  match v with
  | VNone => Some "null"
  | VBool b => Some (if b then "true" else "false")
  | VInt z => Some (pretty z)
  | VStr s => Some (quote ++ s ++ quote)
  | VList l | VTuple l =>
    let fix go (l : list Value) : option (list string) :=
      match l with
      | [] => Some []
      | x :: l' => s ← dumps x; r ← go l'; Some (s :: r)
      end in
    r ← go l; Some ("[" ++ String.concat "," r ++ "]")
  | VDict d =>
    let fix go (d : list (string * Value)) : option (list string) :=
      match d with
      | [] => Some []
      | (k, x) :: d' => s ← dumps x; r ← go d'; Some ((quote ++ k ++ quote ++ ":" ++ s) :: r)
      end in
    r ← go d; Some ("{" ++ String.concat "," r ++ "}")
  | _ => None
  end.

Definition sample_runtime : StarletteRuntime := {|
  json_dumps v :=
    match dumps v with
    | Some s => Ok (list_byte_of_string s)
    | None => Raise (TypeError "Object is not JSON serializable")
    end;
  make_headers _ headers body media_type _ :=
    (default [] headers
     ++ [("content-length", pretty (length body))]
     ++ match media_type with
        | Some m => [("content-type", m)]
        | None => []
        end)%list
|}.

Definition connexion_routing : RoutingKey := "connexion_routing".

(** Modelled from the spec: [RequestResponseDecorator]
    (connexion.decorators.lifecycle) is not part of async_app.py.  It
    wraps the handler so that whatever the handler returns goes through
    [get_response] with the operation's mimetype; the wrapper is an
    [async def]. *)
Definition RequestResponseDecorator {runtime : StarletteRuntime}
    {normalizer : BodyNormalizer} (mimetype : option string) (function : Callable) : Callable :=
  mkCallable (__name__ function) true (fun scope =>
    response ← call function scope;
    get_response (getter := spec_get_response) response mimetype).

(** ** The content type the spec describes *)

(** The first value that is not [None]. *)
Fixpoint first_non_null (l : list (option string)) : option string :=
  match l with
  | [] => None
  | Some t :: _ => Some t
  | None :: l' => first_non_null l'
  end.

(** The first value that is neither [None] nor the empty string. *)
Fixpoint first_truthy (l : list (option string)) : option string :=
  match l with
  | [] => None
  | a :: l' => if truthy a then a else first_truthy l'
  end.

(** [text/plain] for a string, [application/octet-stream] for bytes,
    nothing otherwise. *)
Definition inferred_content_type (data : Value) : option string :=
  match data with
  | VStr _ => Some "text/plain"
  | VBytes _ => Some "application/octet-stream"
  | _ => None
  end.

(** A gateway with one API under [/v1] holding the operation [getPet],
    and requests to it. *)
Definition ok_response : Response Value :=
  mkResponse StarletteResponse (VStr "ok") (Some 200%Z) None None.

Definition get_pet : Callable :=
  mkCallable "get_pet" true (fun _ => Ok (nest 1 (VResponse ok_response))).

Definition getPet : AsyncOperation :=
  Operation.mkAsyncOperation get_pet None "getPet" false.

Definition index : Callable :=
  mkCallable "index" false (fun _ => Ok (VResponse ok_response)).

Definition pets_api : AsyncAsgiApp :=
  mkApp ∅ {["getPet" := getPet]} (mkRouter []) "/v1".

Definition gateway : AsyncAsgiApp :=
  mkApp {["/v1" := pets_api]} ∅ (mkRouter []) "".

Definition routed (ctx : RoutingContext) : Scope :=
  mkScope "GET" "/v1/pets" (Some {["connexion_routing" := ctx]}).

Definition unrouted : Scope := mkScope "GET" "/v1/pets" None.

Definition pets_request : RoutingContext :=
  mkRoutingContext (Some "/v1") (Some "getPet").

Definition no_operation : RoutingContext := mkRoutingContext None None.

Definition unknown_operation : RoutingContext :=
  mkRoutingContext None (Some "missing").

(** An [async def] handler whose result is a coroutine that gives ["ok"],
    registered as the operation [sayOk]. *)
Definition say_ok : Callable :=
  mkCallable "say_ok" true (fun _ => Ok (nest 1 (VStr "ok"))).

Definition sayOk : AsyncOperation :=
  Operation.mkAsyncOperation
    (RequestResponseDecorator (runtime := sample_runtime)
       (normalizer := plain_normalizer) None say_ok)
    None "sayOk" false.

Definition ok_api : AsyncAsgiApp :=
  mkApp ∅ {["sayOk" := sayOk]} (mkRouter []) "".

(** A canonical response with a binary body and no content type. *)
Definition binary_response : ConnexionResponse Value :=
  mkConnexionResponse (Some 200%Z) None None None
    (VBytes (list_byte_of_string "hi")).

(** ** Well-formed routing contexts *)

(** A routing context is well formed for an application when what it
    names is there: it is delegated, or it names no operation, or the
    operation it names is registered.  An [operation_id] that is not
    registered is the defect in the upstream routing table for which
    [asgi_app] raises [MissingAsyncOperation]. *)
Definition well_formed (self : AsyncAsgiApp) (connexion_context : RoutingContext)
    : bool :=
  delegation_guard self connexion_context
  || match operation_id connexion_context with
     | Some key => bool_decide (is_Some (operations self !! key))
     | None => true
     end.

(** ** Construction, and what registration keeps *)

(** [AsyncAsgiApp.__init__]: empty tables, a router without routes. *)
Definition __init__ (base_path : string) : AsyncAsgiApp :=
  mkApp ∅ ∅ (mkRouter []) base_path.

(** Every sub-application is stored under its own base path, as the
    assignment [self.apis[api.base_path] = api] of [add_api] does. *)
Definition keyed_by_base_path (self : AsyncAsgiApp) : Prop :=
  forall key api, apis self !! key = Some api -> base_path api = key.

(** A handler that raises, and one that returns a bare string. *)
Definition failing : Callable :=
  mkCallable "failing" false (fun _ => Raise (HandlerError "boom")).

Definition failOp : AsyncOperation :=
  Operation.mkAsyncOperation failing None "fail" false.

Definition greeting : Callable :=
  mkCallable "greeting" true (fun _ => Ok (VStr "hello")).

Definition greetOp : AsyncOperation :=
  Operation.mkAsyncOperation greeting None "greet" false.

Definition named (operation_id : string) : RoutingContext :=
  mkRoutingContext None (Some operation_id).

Definition fail_api : AsyncAsgiApp :=
  _add_operation_internal (__init__ "") "get" "/fail" failOp.

Definition greet_api : AsyncAsgiApp :=
  _add_operation_internal (__init__ "") "get" "/greet" greetOp.

(** A routing context that names a base path nobody registered. *)
Definition elsewhere : RoutingContext :=
  mkRoutingContext (Some "/v2") (Some "getPet").

(** The gateway after [add_url_rule("/", view_func=index)]. *)
Definition gateway_with_index : AsyncAsgiApp :=
  set_router gateway (mkRouter [mkRoute "/" (Some index) None None true]).

(** The gateway with a manual route for [/v1/pets] whose handler raises. *)
Definition failing_gateway : AsyncAsgiApp :=
  set_router gateway (mkRouter [mkRoute "/v1/pets" (Some failing) None None true]).


(** A canonical response that brings its own mimetype. *)
Definition html_response : ConnexionResponse Value :=
  mkConnexionResponse (Some 200%Z) (Some "text/html") None None (VStr "<p>hi</p>").

(** * Properties of the dispatcher *)

(** Unfold the binds of the run monad. *)
Ltac unfold_run :=
  unfold mbind, mret, run_bind, run_ret, emit, lift, raise.

Section DispatchFacts.
Context {routing_key : RoutingKey}.

Lemma asgi_app_unfold (self : AsyncAsgiApp) (scope : Scope) :
  asgi_app self scope =
  dispatch ((fun api => __call__ api scope) <$> apis self)
    (base_path self) (operations self) (router self) scope.
Proof. by destruct self. Qed.

Lemma delegation_guard_true (self : AsyncAsgiApp) (ctx : RoutingContext) :
  delegation_guard self ctx = true <->
  exists key api, api_base_path ctx = Some key
                  /\ apis self !! key = Some api
                  /\ key <> base_path self.
Proof.
  unfold delegation_guard. split.
  - destruct (api_base_path ctx) as [key|]; [|done].
    rewrite andb_true_iff, bool_decide_eq_true, negb_true_iff, String.eqb_neq.
    intros [[api Hapi] Hne]. by exists key, api.
  - intros (key & api & -> & Hapi & Hne).
    rewrite andb_true_iff, bool_decide_eq_true, negb_true_iff, String.eqb_neq.
    by rewrite Hapi.
Qed.

Lemma asgi_app_delegate (self : AsyncAsgiApp) (scope : Scope)
    (ctx : RoutingContext) (key : string) (api : AsyncAsgiApp) :
  routing_context scope = Some ctx ->
  api_base_path ctx = Some key ->
  apis self !! key = Some api ->
  key <> base_path self ->
  asgi_app self scope =
  mkRun [SubApplication key (events (__call__ api scope))]
    (outcome (__call__ api scope)).
Proof.
  intros Hctx Hkey Hapi Hne.
  rewrite asgi_app_unfold. unfold dispatch.
  rewrite Hctx, Hkey, lookup_fmap, Hapi. simpl.
  apply String.eqb_neq in Hne. by rewrite Hne.
Qed.

Lemma asgi_app_otherwise (self : AsyncAsgiApp) (scope : Scope)
    (ctx : RoutingContext) :
  routing_context scope = Some ctx ->
  delegation_guard self ctx = false ->
  asgi_app self scope =
  operation_or_route (operations self) (router self) scope ctx.
Proof.
  intros Hctx Hguard.
  rewrite asgi_app_unfold. unfold dispatch. rewrite Hctx.
  unfold delegation_guard in Hguard.
  destruct (api_base_path ctx) as [key|]; [|done].
  rewrite lookup_fmap.
  destruct (apis self !! key) as [api|] eqn:Hapi; simpl; [|done].
  rewrite bool_decide_eq_true_2 in Hguard by eauto.
  simpl in Hguard. by rewrite Hguard.
Qed.

Lemma operation_or_route_found operations router scope ctx key operation :
  operation_id ctx = Some key ->
  operations !! key = Some operation ->
  operation_or_route operations router scope ctx =
  (_ ← emit (OperationCall (Operation.operation_id operation));
   response ← lift (Operation.__call__ operation scope);
   response ← await_loop response;
   call_response response).
Proof. intros Hid Hop. unfold operation_or_route. by rewrite Hid; simpl; rewrite Hop. Qed.

Lemma operation_or_route_manual operations router scope ctx :
  operation_id ctx = None ->
  operation_or_route operations router scope ctx =
  mkRun [RouterCall (events (Router_call router scope))]
    (_ ← outcome (Router_call router scope); Ok VNone).
Proof. intros Hid. unfold operation_or_route. by rewrite Hid. Qed.

Lemma operation_or_route_unknown operations router scope ctx key :
  operation_id ctx = Some key ->
  operations !! key = None ->
  operation_or_route operations router scope ctx =
  raise (new_MissingAsyncOperation ["Encountered unknown operation_id."]).
Proof. intros Hid Hop. unfold operation_or_route. by rewrite Hid; simpl; rewrite Hop. Qed.


End DispatchFacts.

Section DispatchClaims.
Context {routing_key : RoutingKey}.

(** C5.  A request whose scope has no routing context makes [asgi_app]
    raise [MissingMiddleware] before anything else happens: no event is
    logged, the outcome does not depend on the application (its
    sub-applications, operations and router) nor on the method and
    path of the request, and [__call__] lets the error through. *)
Theorem missing_routing_context_raises (self : AsyncAsgiApp) (scope : Scope) :
  routing_context scope = None ->
  (exists msg, asgi_app self scope = mkRun [] (Raise (MissingMiddleware msg)))
  /\ (forall self' method' path',
        asgi_app self' (mkScope method' path' (extensions scope))
        = asgi_app self scope)
  /\ (exists msg, __call__ self scope = mkRun [] (Raise (MissingMiddleware msg))).
Proof.
  intros Hctx.
  assert (Hraise : forall app sc, routing_context sc = None ->
            asgi_app app sc = raise (MissingMiddleware
              "Could not find routing information in scope. Please make sure you have a routing middleware registered upstream. ")).
  { intros app sc Hsc. rewrite asgi_app_unfold. unfold dispatch. by rewrite Hsc. }
  split; [|split].
  - eexists. by apply Hraise.
  - intros self' method' path'. rewrite (Hraise self scope Hctx).
    by apply Hraise.
  - eexists. unfold __call__. by rewrite (Hraise self scope Hctx).
Qed.

(** C3.  When the routing context names a registered sub-application
    other than the instance itself, [asgi_app] is the call of that
    sub-application on the same scope: its events nested under one
    [SubApplication] event, its outcome unchanged.  The operations and
    the router of the dispatching instance play no part. *)
Theorem delegation_to_sub_application (self : AsyncAsgiApp) (scope : Scope)
    (ctx : RoutingContext) (key : string) (api : AsyncAsgiApp) :
  routing_context scope = Some ctx ->
  api_base_path ctx = Some key ->
  apis self !! key = Some api ->
  key <> base_path self ->
  asgi_app self scope =
    mkRun [SubApplication key (events (__call__ api scope))]
      (outcome (__call__ api scope))
  /\ actions (asgi_app self scope) = [Delegate]
  /\ forall operations' router',
       asgi_app (mkApp (apis self) operations' router' (base_path self)) scope
       = asgi_app self scope.
Proof.
  intros Hctx Hkey Hapi Hne.
  pose proof (asgi_app_delegate self scope ctx key api Hctx Hkey Hapi Hne) as Hself.
  split; [done|split].
  - by rewrite Hself.
  - intros operations' router'. rewrite Hself.
    by apply (asgi_app_delegate _ scope ctx key api).
Qed.

(** C4, as amended.  With a routing context and no delegation, an [operation_id]
    that is not in the operation table has two outcomes.  If it is
    [None], the router is called once, the events are the router's under
    one [RouterCall], and the only error is one the router raises:
    when the router returns, so does [asgi_app].  If it names an
    operation, [MissingAsyncOperation] is raised with status 500, no
    event is logged and the router plays no part. *)
Theorem unknown_operation_or_manual_route (self : AsyncAsgiApp) (scope : Scope)
    (ctx : RoutingContext) :
  routing_context scope = Some ctx ->
  delegation_guard self ctx = false ->
  (operation_id ctx = None ->
     let r := Router_call (router self) scope in
     asgi_app self scope = mkRun [RouterCall (events r)] (_ ← outcome r; Ok VNone)
     /\ actions (asgi_app self scope) = [FallBack]
     /\ (forall e, outcome (asgi_app self scope) = Raise e -> outcome r = Raise e)
     /\ (is_ok (outcome r) = true -> outcome (asgi_app self scope) = Ok VNone))
  /\ (forall key, operation_id ctx = Some key ->
        operations self !! key = None ->
        (exists args, asgi_app self scope
                      = mkRun [] (Raise (MissingAsyncOperation 500 args)))
        /\ forall router', asgi_app (set_router self router') scope
                           = asgi_app self scope).
Proof.
  intros Hctx Hguard. split.
  - intros Hid r.
    rewrite (asgi_app_otherwise self scope ctx Hctx Hguard).
    rewrite (operation_or_route_manual _ _ _ _ Hid). fold r.
    split; [done|split; [done|split]]; simpl.
    + intros e. by destruct (outcome r).
    + by destruct (outcome r).
  - intros key Hid Hop. split.
    + eexists. rewrite (asgi_app_otherwise self scope ctx Hctx Hguard).
      by rewrite (operation_or_route_unknown _ _ _ _ key Hid Hop).
    + intros router'.
      rewrite (asgi_app_otherwise self scope ctx Hctx Hguard).
      rewrite (asgi_app_otherwise (set_router self router') scope ctx Hctx Hguard).
      rewrite !(operation_or_route_unknown _ _ _ _ key Hid); done.
Qed.



End DispatchClaims.

Section DispatchExamples.
#[local] Existing Instance connexion_routing.

Lemma missing_routing_context_raises_witness :
  routing_context unrouted = None
  /\ exists msg, asgi_app gateway unrouted
                 = mkRun [] (Raise (MissingMiddleware msg)).
Proof.
  split; [reflexivity|].
  exact (proj1 (missing_routing_context_raises gateway unrouted eq_refl)).
Defined.

Lemma delegation_to_sub_application_witness :
  routing_context (routed pets_request) = Some pets_request
  /\ api_base_path pets_request = Some "/v1"
  /\ apis gateway !! "/v1" = Some pets_api
  /\ "/v1" <> base_path gateway
  /\ actions (asgi_app gateway (routed pets_request)) = [Delegate].
Proof.
  assert (Hne : "/v1" <> base_path gateway) by discriminate.
  split; [reflexivity|split; [reflexivity|split; [reflexivity|split; [exact Hne|]]]].
  exact (proj1 (proj2 (delegation_to_sub_application gateway
           (routed pets_request) pets_request "/v1" pets_api
           eq_refl eq_refl eq_refl Hne))).
Defined.

Lemma unknown_operation_or_manual_route_witness :
  routing_context (routed no_operation) = Some no_operation
  /\ delegation_guard gateway no_operation = false
  /\ actions (asgi_app gateway (routed no_operation)) = [FallBack].
Proof.
  split; [reflexivity|split; [reflexivity|]].
  exact (proj1 (proj2 (proj1 (unknown_operation_or_manual_route gateway
           (routed no_operation) no_operation eq_refl eq_refl) eq_refl))).
Defined.


(** Well-formedness cannot be dropped: the routing context
    [{operation_id: "missing"}] is not well formed for the gateway, and
    the request triggers none of the three actions; [asgi_app] raises
    [MissingAsyncOperation]. *)
Example unknown_operation_triggers_no_action :
  well_formed gateway unknown_operation = false /\
  routing_context (routed unknown_operation) = Some unknown_operation
  /\ ~ (exists a, actions (asgi_app gateway (routed unknown_operation)) = [a])
  /\ asgi_app gateway (routed unknown_operation)
     = mkRun [] (Raise (MissingAsyncOperation 500
                          ["Encountered unknown operation_id."])).
Proof.
  split; [reflexivity|].
  split; [reflexivity|split; [|reflexivity]].
  intros [a Ha]. vm_compute in Ha. discriminate Ha.
Qed.

(** C4, as stated, fails: with no [operation_id] and a manual route
    whose handler raises, the router is called once and its error
    comes out of [asgi_app]. *)
Lemma manual_handler_error_escapes :
  routing_context (routed no_operation) = Some no_operation
  /\ delegation_guard failing_gateway no_operation = false
  /\ operation_id no_operation = None
  /\ asgi_app failing_gateway (routed no_operation)
     = mkRun [RouterCall [EndpointCall "failing"]] (Raise (HandlerError "boom")).
Proof. repeat split. Qed.

End DispatchExamples.

(** * Properties of the response conversion *)

Section BuildFacts.
Context {runtime : StarletteRuntime} {normalizer : BodyNormalizer}.

Lemma is_framework_response_spec (data : Value) :
  _is_framework_response data = true <->
  exists r, data = VResponse r /\ response_cls r <> MiddlewareResponse.
Proof.
  unfold _is_framework_response, isinstance_StarletteResponse,
    isinstance_MiddlewareResponse.
  split.
  - destruct data as [| | | | | | | |r| |]; try discriminate.
    simpl. rewrite negb_true_iff, bool_decide_eq_false. eauto.
  - intros (r & -> & Hcls). simpl.
    by rewrite negb_true_iff, bool_decide_eq_false.
Qed.

(** The content type [_build_response] hands to the constructor. *)
Lemma resolved_content_type (content_type mimetype serialized : option string)
    (data : Value) :
  match py_or (py_or content_type mimetype) serialized with
  | None =>
    if isinstance_str data then Some "text/plain"
    else if isinstance_bytes data then Some "application/octet-stream"
    else None
  | Some _ => py_or (py_or content_type mimetype) serialized
  end =
  match first_truthy [content_type; mimetype] with
  | Some t => Some t
  | None =>
    match serialized with
    | Some t => Some t
    | None => inferred_content_type data
    end
  end.
Proof.
  unfold py_or. simpl.
  destruct (truthy content_type) eqn:Hc.
  - rewrite Hc. destruct content_type; [done | discriminate].
  - destruct (truthy mimetype) eqn:Hm.
    + rewrite ?Hm. destruct mimetype; [done | discriminate].
    + rewrite ?Hm. destruct serialized; [done|]. by destruct data.
Qed.

(** What a returning call of [_build_response] built. *)
Lemma build_response_Ok data mimetype content_type status_code headers r :
  _build_response data mimetype content_type status_code headers = Ok r ->
  _is_framework_response data = false
  /\ exists data' status' serialized,
       _prepare_body_and_status_code data mimetype status_code
       = Ok (data', status', serialized)
       /\ is_ok (render (response_cls r) data') = true
       /\ r = mkResponse
                (if isinstance_dict data' || isinstance_list data'
                 then StarletteJSONResponse else StarletteResponse)
                data' status'
                (match first_truthy [content_type; mimetype] with
                 | Some t => Some t
                 | None =>
                   match serialized with
                   | Some t => Some t
                   | None => inferred_content_type data'
                   end
                 end)
                headers.
Proof.
  unfold _build_response.
  destruct (_is_framework_response data); [discriminate|].
  destruct (_prepare_body_and_status_code data mimetype status_code)
    as [[[data' status'] serialized]|e]; simpl; [|discriminate].
  unfold new_response.
  destruct (render _ data') as [b|e] eqn:Hrender; simpl; [|discriminate].
  intros [= <-]. split; [done|].
  exists data', status', serialized. simpl.
  rewrite Hrender. split; [done|split; [done|]].
  f_equal. apply resolved_content_type.
Qed.

(** [_build_response] returns when the data is not a framework response,
    the normalization returns and the body renders. *)
Lemma build_response_returns data mimetype content_type status_code headers
    data' status' serialized :
  _is_framework_response data = false ->
  _prepare_body_and_status_code data mimetype status_code
  = Ok (data', status', serialized) ->
  is_ok (render (if isinstance_dict data' || isinstance_list data'
                 then StarletteJSONResponse else StarletteResponse) data') = true ->
  exists r, _build_response data mimetype content_type status_code headers = Ok r.
Proof.
  intros Hfw Hprep Hrender. unfold _build_response.
  rewrite Hfw, Hprep. simpl. unfold new_response.
  destruct (render _ data'); [|discriminate]. simpl. eauto.
Qed.

End BuildFacts.

Section BuildClaims.
Context {runtime : StarletteRuntime} {normalizer : BodyNormalizer}.


(** C6.  Data that is a framework response makes [_build_response]
    raise [TypeError], whatever the other arguments are and whatever
    the normalization and the response constructor would have done. *)
Theorem framework_response_as_data_raises data mimetype content_type
    status_code headers :
  _is_framework_response data = true ->
  (exists msg,
     _build_response data mimetype content_type status_code headers
     = Raise (TypeError msg))
  /\ forall (runtime' : StarletteRuntime) (normalizer' : BodyNormalizer)
       mimetype' content_type' status_code' headers',
       @_build_response runtime' normalizer' data mimetype' content_type'
         status_code' headers'
       = _build_response data mimetype content_type status_code headers.
Proof.
  intros Hfw. split.
  - eexists. unfold _build_response. by rewrite Hfw.
  - intros. unfold _build_response. by rewrite Hfw.
Qed.

(** C7, as amended.  The content type given to the response constructor
    is the first of the [content_type] argument and the [mimetype]
    argument that is neither [None] nor empty; failing both it is the
    serialized mimetype as the normalization returned it, and when
    that is [None] it is [text/plain] for a string,
    [application/octet-stream] for bytes and [None] for anything else.
    When neither argument is the empty string this is the first of the
    three that is not [None]. *)
Theorem content_type_precedence data mimetype content_type status_code
    headers r data' status' serialized :
  _build_response data mimetype content_type status_code headers = Ok r ->
  _prepare_body_and_status_code data mimetype status_code
  = Ok (data', status', serialized) ->
  init_media_type r =
    match first_truthy [content_type; mimetype] with
    | Some t => Some t
    | None =>
      match serialized with
      | Some t => Some t
      | None => inferred_content_type data'
      end
    end
  /\ (content_type <> Some "" -> mimetype <> Some "" ->
      init_media_type r =
        match first_non_null [content_type; mimetype; serialized] with
        | Some t => Some t
        | None => inferred_content_type data'
        end).
Proof.
  intros Hbuild Hprep.
  apply build_response_Ok in Hbuild
    as (_ & d & s & m & Hprep' & _ & ->).
  rewrite Hprep in Hprep'. injection Hprep' as <- <- <-.
  simpl. split; [done|].
  intros Hc Hm.
  destruct content_type as [c|]; simpl.
  - destruct (String.eqb c "") eqn:Hc'; simpl; [|done].
    apply String.eqb_eq in Hc'. by subst.
  - destruct mimetype as [t|]; simpl; [|by destruct serialized].
    destruct (String.eqb t "") eqn:Hm'; simpl; [|done].
    apply String.eqb_eq in Hm'. by subst.
Qed.

End BuildClaims.

Section ConversionClaims.
Context {runtime : StarletteRuntime} {normalizer : BodyNormalizer}.

(** C8, as amended.  When [_connexion_to_framework_response c m] returns
    a response [n], converting [n] back with [m] gives: the mimetype
    [m]; the status code the normalization resolved; the content type
    of [c] whenever that is neither [None] nor empty, and otherwise the
    one the build routine resolved or, failing that, the default of
    the response class; the header list Starlette built from the
    headers of [c]; and a body that is never [None], namely the
    rendering of the normalized body, which is the body of [c] when
    that is bytes the normalization returned unchanged. *)
Theorem round_trip_through_native (c : ConnexionResponse Value)
    (m : option string) (n : Response Value) data' status' serialized :
  _connexion_to_framework_response c m = Ok n ->
  _prepare_body_and_status_code (body c) (py_or (mimetype c) m) (status_code c)
  = Ok (data', status', serialized) ->
  status_code (_framework_to_connexion_response n m) = status'
  /\ mimetype (_framework_to_connexion_response n m) = m
  /\ (truthy (content_type c) = true ->
      content_type (_framework_to_connexion_response n m) = content_type c)
  /\ (truthy (content_type c) = false ->
      content_type (_framework_to_connexion_response n m) =
        match first_truthy [py_or (mimetype c) m] with
        | Some t => Some t
        | None =>
          match serialized with
          | Some t => Some t
          | None =>
            match inferred_content_type data' with
            | Some t => Some t
            | None => class_media_type (response_cls n)
            end
          end
        end)
  /\ init_headers n = headers c
  /\ headers (_framework_to_connexion_response n m) = Some (attr_headers n)
  /\ has_body (response_cls n) = true
  /\ (exists b, render (response_cls n) data' = Ok b
                /\ body (_framework_to_connexion_response n m) = VBytes b)
  /\ (forall b, data' = VBytes b -> body c = VBytes b ->
        body (_framework_to_connexion_response n m) = body c).
Proof.
  unfold _connexion_to_framework_response. intros Hbuild Hprep.
  apply build_response_Ok in Hbuild
    as (_ & d & s & t & Hprep' & Hrender & ->).
  rewrite Hprep in Hprep'. injection Hprep' as <- <- <-.
  cbn [response_cls] in Hrender.
  set (cls := if isinstance_dict data' || isinstance_list data'
              then StarletteJSONResponse else StarletteResponse) in *.
  assert (Hcls : has_body cls = true) by (subst cls; by case (_ || _)).
  destruct (render cls data') as [b|e] eqn:Hb; [|discriminate Hrender].
  unfold _framework_to_connexion_response, attr_status_code, attr_media_type,
    attr_body.
  cbn [status_code mimetype content_type headers body response_cls content
       init_status_code init_media_type init_headers].
  rewrite Hcls, Hb.
  split; [done|]. split; [done|].
  split; [|split; [|split; [done|split; [done|split; [done|split]]]]].
  - intros Hc. cbn [first_truthy]. rewrite Hc.
    destruct (content_type c); [reflexivity|discriminate Hc].
  - intros Hc. cbn [first_truthy]. rewrite Hc.
    destruct (truthy (py_or (mimetype c) m)) eqn:Hm.
    + destruct (py_or (mimetype c) m); [reflexivity|discriminate Hm].
    + destruct serialized; [reflexivity|].
      by destruct (inferred_content_type data').
  - by exists b.
  - intros b' -> Hbody. rewrite Hbody. subst cls. simpl in Hb.
    by injection Hb as ->.
Qed.

End ConversionClaims.

Section UnwrapClaims.
Context {routing_key : RoutingKey} {getter : ResponseGetter}.
Context {runtime : StarletteRuntime} {normalizer : BodyNormalizer}.

Lemma await_all_nest (n : nat) (v : Value) :
  iscoroutine v = false -> await_all (nest n v) = (n, Ok v).
Proof.
  intros Hv. induction n as [|n IH]; simpl.
  - by destruct v.
  - by rewrite IH.
Qed.

(** C9.  [n] coroutine layers around a value [v] that is not a coroutine
    are awaited one by one, for every [n]: the loop gives [v] after [n]
    awaits, [get_response] goes on with [v], and [asgi_app] goes on to
    call [v] as the response of the operation.  In particular a handler
    result that resolves to a string, through any number of layers,
    becomes a response whose body is that string, provided the
    normalization hands the string back as the data. *)
Theorem nested_coroutines_are_unwrapped (n : nat) (v : Value) :
  iscoroutine v = false ->
  await_all (nest n v) = (n, Ok v)
  /\ (forall mimetype,
        get_response (nest n v) mimetype = _get_response v mimetype)
  /\ (forall self scope ctx key operation,
        routing_context scope = Some ctx ->
        delegation_guard self ctx = false ->
        operation_id ctx = Some key ->
        operations self !! key = Some operation ->
        Operation.__call__ operation scope = Ok (nest n v) ->
        asgi_app self scope =
        mkRun (OperationCall (Operation.operation_id operation)
               :: replicate n Await ++ events (call_response v))
          (outcome (call_response v)))
  /\ (forall s mimetype status' serialized,
        v = VStr s ->
        _prepare_body_and_status_code (VStr s) mimetype None
        = Ok (VStr s, status', serialized) ->
        exists r,
          get_response (getter := spec_get_response) (nest n v) mimetype
          = Ok (VResponse r)
          /\ content r = VStr s
          /\ attr_body r = Some (list_byte_of_string s)).
Proof.
  intros Hv. pose proof (await_all_nest n v Hv) as Hloop.
  split; [done|split; [|split]].
  - intros mimetype. unfold get_response. by rewrite Hloop.
  - intros self scope ctx key operation Hctx Hguard Hid Hop Hcall.
    rewrite (asgi_app_otherwise self scope ctx Hctx Hguard).
    rewrite (operation_or_route_found _ _ _ _ key operation Hid Hop).
    rewrite Hcall. unfold_run.
    cbn [outcome events]. unfold await_loop. rewrite Hloop.
    cbn [outcome events app].
    by destruct (outcome (call_response v)).
  - intros s mimetype status' serialized -> Hprep.
    unfold get_response. rewrite Hloop. simpl.
    unfold _get_response, spec_get_response, _build_response. simpl.
    rewrite Hprep. simpl. eexists. split; [reflexivity|]. by split.
Qed.

End UnwrapClaims.

(** C10.  The decorator of [route] never hands the view function to the
    router: the application it leaves behind is the same for any two
    functions, and without an [endpoint] keyword the call of [add_route]
    raises [TypeError].  [add_url_rule] with the same rule does register
    the function: a request for the rule that falls back to the router
    then runs it. *)
Theorem route_decorator_drops_view_function :
  (forall self rule kwargs f g,
     fst <$> route self rule kwargs f = fst <$> route self rule kwargs g)
  /\ (forall self rule f,
        exists msg, route self rule no_kwargs f = Raise (TypeError msg))
  /\ (exists app,
        add_url_rule gateway "/" None (Some index) no_options = Ok app
        /\ asgi_app (routing_key := connexion_routing) app
             (mkScope "GET" "/" (Some {["connexion_routing" := no_operation]}))
           = mkRun [RouterCall [EndpointCall "index"; Send ok_response]] (Ok VNone)).
Proof.
  split; [|split].
  - intros self rule kwargs f g. unfold route.
    by destruct (Router_add_route (router self) rule kwargs).
  - intros self rule f. by eexists.
  - eexists. split; reflexivity.
Qed.

Section ResponseExamples.
#[local] Existing Instance sample_runtime.
#[local] Existing Instance plain_normalizer.
#[local] Existing Instance spec_get_response.
#[local] Existing Instance connexion_routing.



Lemma framework_response_as_data_raises_witness :
  _is_framework_response (VResponse ok_response) = true
  /\ exists msg,
       _build_response (VResponse ok_response) (Some "text/plain") None
         (Some 404%Z) None
       = Raise (TypeError msg).
Proof.
  split; [reflexivity|].
  exact (proj1 (framework_response_as_data_raises (VResponse ok_response)
           (Some "text/plain") None (Some 404%Z) None eq_refl)).
Defined.

Lemma content_type_precedence_witness :
  _build_response (VStr "not found") None None (Some 404%Z) None
  = Ok (mkResponse StarletteResponse (VStr "not found") (Some 404%Z)
          (Some "text/plain") None)
  /\ _prepare_body_and_status_code (VStr "not found") None (Some 404%Z)
     = Ok (VStr "not found", Some 404%Z, None)
  /\ init_media_type (mkResponse StarletteResponse (VStr "not found")
                        (Some 404%Z) (Some "text/plain") None)
     = match first_truthy [None; None] with
       | Some t => Some t
       | None => inferred_content_type (VStr "not found")
       end.
Proof.
  split; [reflexivity|split; [reflexivity|]].
  exact (proj1 (content_type_precedence (VStr "not found") None None
           (Some 404%Z) None _ _ _ _ eq_refl eq_refl)).
Defined.

(** C7, as stated, fails on an empty content type: with
    [content_type=""] and [mimetype="text/html"] the first value that is
    not [None] is the empty string, but the response gets [text/html]. *)
Lemma empty_content_type_is_skipped :
  exists r serialized,
    _build_response (VStr "x") (Some "text/html") (Some "") None None = Ok r
    /\ _prepare_body_and_status_code (VStr "x") (Some "text/html") None
       = Ok (VStr "x", Some 200%Z, serialized)
    /\ first_non_null [Some ""; Some "text/html"; serialized] = Some ""
    /\ init_media_type r = Some "text/html".
Proof. eexists _, _. repeat split. Qed.

Lemma round_trip_through_native_witness :
  _connexion_to_framework_response binary_response (Some "text/plain")
  = Ok (mkResponse StarletteResponse (VBytes (list_byte_of_string "hi"))
          (Some 200%Z) (Some "text/plain") None)
  /\ _prepare_body_and_status_code (body binary_response)
       (py_or (mimetype binary_response) (Some "text/plain"))
       (status_code binary_response)
     = Ok (VBytes (list_byte_of_string "hi"), Some 200%Z, Some "text/plain")
  /\ status_code (_framework_to_connexion_response
                    (mkResponse StarletteResponse
                       (VBytes (list_byte_of_string "hi"))
                       (Some 200%Z) (Some "text/plain") None)
                    (Some "text/plain"))
     = Some 200%Z.
Proof.
  split; [reflexivity|split; [reflexivity|]].
  exact (proj1 (round_trip_through_native binary_response (Some "text/plain")
           _ _ _ _ eq_refl eq_refl)).
Defined.

(** C8, as stated, fails on the content type: a canonical response
    without one comes back from the round trip with the mimetype as
    its content type. *)
Lemma round_trip_changes_content_type :
  exists n,
    _connexion_to_framework_response binary_response (Some "text/plain") = Ok n
    /\ content_type (_framework_to_connexion_response n (Some "text/plain"))
       = Some "text/plain"
    /\ content_type binary_response = None.
Proof. eexists. repeat split. Qed.

Lemma nested_coroutines_are_unwrapped_witness :
  iscoroutine (VStr "ok") = false
  /\ await_all (nest 2 (VStr "ok")) = (2%nat, Ok (VStr "ok"))
  /\ exists r,
       get_response (nest 2 (VStr "ok")) None = Ok (VResponse r)
       /\ content r = VStr "ok"
       /\ attr_body r = Some (list_byte_of_string "ok").
Proof.
  split; [reflexivity|].
  destruct (nested_coroutines_are_unwrapped 2 (VStr "ok") eq_refl)
    as (Hloop & _ & _ & Hok).
  split; [exact Hloop|].
  exact (Hok "ok" None (Some 200%Z) None eq_refl eq_refl).
Defined.

(** The scenario of C9: the handler of [sayOk] is an [async def] whose
    result is a coroutine giving ["ok"].  Both layers are awaited, and
    the response sent has the body ["ok"]. *)
Example async_handler_ok :
  call say_ok (routed (mkRoutingContext None (Some "sayOk")))
  = Ok (nest 2 (VStr "ok"))
  /\ exists r,
       get_response (nest 2 (VStr "ok")) None = Ok (VResponse r)
       /\ attr_body r = Some (list_byte_of_string "ok")
       /\ asgi_app ok_api (routed (mkRoutingContext None (Some "sayOk")))
          = mkRun [OperationCall "sayOk"; Send r] (Ok VNone).
Proof. split; [reflexivity|]. eexists. repeat split. Qed.

(** The scenario of §8 for a tuple return [("not found", 404)] after
    unpacking, and for the operation [getPet] behind the gateway. *)
Example not_found_scenario :
  _build_response (VStr "not found") None None (Some 404%Z) None
  = Ok (mkResponse StarletteResponse (VStr "not found") (Some 404%Z)
          (Some "text/plain") None).
Proof. reflexivity. Qed.

Example gateway_delegates_get_pet :
  asgi_app gateway (routed pets_request)
  = mkRun [SubApplication "/v1"
             [OperationCall "getPet"; Await; Send ok_response]]
      (Ok VNone).
Proof. reflexivity. Qed.

End ResponseExamples.

(** * Further properties: invocation, registration, composition *)

Section MoreDispatch.
Context {routing_key : RoutingKey}.

Lemma await_all_nest_raises (n : nat) (e : Exception) :
  await_all (nest n (VCoroutine (Raises e))) = (S n, Raise e).
Proof. induction n as [|n IH]; simpl; [done|]. by rewrite IH. Qed.

(** The outcome of [asgi_app] for a registered operation. *)
Lemma asgi_app_operation (self : AsyncAsgiApp) (scope : Scope)
    (ctx : RoutingContext) (key : string) (operation : AsyncOperation) :
  routing_context scope = Some ctx ->
  delegation_guard self ctx = false ->
  operation_id ctx = Some key ->
  operations self !! key = Some operation ->
  asgi_app self scope =
  (_ ← emit (OperationCall (Operation.operation_id operation));
   response ← lift (Operation.__call__ operation scope);
   response ← await_loop response;
   call_response response).
Proof.
  intros Hctx Hguard Hid Hop.
  rewrite (asgi_app_otherwise self scope ctx Hctx Hguard).
  by apply operation_or_route_found with key.
Qed.

(** The router matters only on the fall-back path. *)
Lemma asgi_app_router_irrelevant (self : AsyncAsgiApp) (scope : Scope)
    (ctx : RoutingContext) (router' : Router) :
  routing_context scope = Some ctx ->
  delegation_guard self ctx = true \/ operation_id ctx <> None ->
  asgi_app (set_router self router') scope = asgi_app self scope.
Proof.
  intros Hctx Hcase.
  destruct (delegation_guard self ctx) eqn:Hguard.
  - apply delegation_guard_true in Hguard as (key & api & Hkey & Hapi & Hne).
    rewrite (asgi_app_delegate self scope ctx key api Hctx Hkey Hapi Hne).
    by apply (asgi_app_delegate _ scope ctx key api).
  - destruct Hcase as [?|Hid]; [done|].
    rewrite (asgi_app_otherwise self scope ctx Hctx Hguard).
    rewrite (asgi_app_otherwise (set_router self router') scope ctx Hctx Hguard).
    unfold operation_or_route.
    destruct (operation_id ctx) as [key|]; [|done]. simpl.
    by destruct (operations self !! key).
Qed.

(** X1.  [AsyncOperation.__call__] gives what the body of the callable
    gives, value or exception, whether the callable is an [async def]
    (called, then awaited) or a plain function (called). *)
Theorem operation_call_sync_or_async (self : AsyncOperation) (scope : Scope) :
  Operation.__call__ self scope = code (Operation.fn self) scope.
Proof.
  unfold Operation.__call__, call.
  destruct (iscoroutinefunction (Operation.fn self)); [|done].
  simpl. by destruct (code (Operation.fn self) scope).
Qed.

(** X2.  An exception out of a registered operation leaves [asgi_app]
    unchanged, and nothing is sent: when the call itself raises, and
    when a coroutine raises after [n] layers that returned. *)
Theorem handler_error_propagates (self : AsyncAsgiApp) (scope : Scope)
    (ctx : RoutingContext) (key : string) (operation : AsyncOperation)
    (e : Exception) :
  routing_context scope = Some ctx ->
  delegation_guard self ctx = false ->
  operation_id ctx = Some key ->
  operations self !! key = Some operation ->
  (Operation.__call__ operation scope = Raise e ->
   asgi_app self scope
   = mkRun [OperationCall (Operation.operation_id operation)] (Raise e))
  /\ (forall n,
        Operation.__call__ operation scope
        = Ok (nest n (VCoroutine (Raises e))) ->
        asgi_app self scope
        = mkRun (OperationCall (Operation.operation_id operation)
                 :: replicate (S n) Await) (Raise e)).
Proof.
  intros Hctx Hguard Hid Hop.
  rewrite (asgi_app_operation self scope ctx key operation Hctx Hguard Hid Hop).
  split.
  - intros ->. by unfold_run.
  - intros n ->. unfold_run. cbn [outcome events].
    unfold await_loop. rewrite await_all_nest_raises.
    by cbn [outcome events app].
Qed.

(** X3.  [asgi_app] does not convert the result of an operation: once
    the coroutine layers are awaited, a value that is not a response
    object is called all the same, which is a [TypeError], and nothing
    is sent. *)
Theorem non_response_result_raises (self : AsyncAsgiApp) (scope : Scope)
    (ctx : RoutingContext) (key : string) (operation : AsyncOperation)
    (n : nat) (v : Value) :
  routing_context scope = Some ctx ->
  delegation_guard self ctx = false ->
  operation_id ctx = Some key ->
  operations self !! key = Some operation ->
  Operation.__call__ operation scope = Ok (nest n v) ->
  iscoroutine v = false ->
  (forall r, v <> VResponse r) ->
  exists msg,
    asgi_app self scope
    = mkRun (OperationCall (Operation.operation_id operation)
             :: replicate n Await) (Raise (TypeError msg)).
Proof.
  intros Hctx Hguard Hid Hop Hcall Hv Hresp.
  rewrite (asgi_app_operation self scope ctx key operation Hctx Hguard Hid Hop).
  rewrite Hcall. unfold_run. cbn [outcome events].
  unfold await_loop. rewrite (await_all_nest n v Hv).
  cbn [outcome events app].
  destruct v; try (eexists; simpl; by rewrite app_nil_r).
  by destruct (Hresp r).
Qed.

(** X4.  After [_add_operation_internal], a request that names the
    operation's id and is not delegated runs that operation.  The key
    is the id alone: an operation registered before under the same id,
    for whatever method and path, is replaced. *)
Theorem registered_operation_is_dispatched (self : AsyncAsgiApp)
    (method path : string) (operation : AsyncOperation) (scope : Scope)
    (ctx : RoutingContext) :
  routing_context scope = Some ctx ->
  delegation_guard self ctx = false ->
  operation_id ctx = Some (Operation.operation_id operation) ->
  asgi_app (_add_operation_internal self method path operation) scope =
    (_ ← emit (OperationCall (Operation.operation_id operation));
     response ← lift (Operation.__call__ operation scope);
     response ← await_loop response;
     call_response response)
  /\ forall earlier method' path',
       Operation.operation_id earlier = Operation.operation_id operation ->
       _add_operation_internal
         (_add_operation_internal self method' path' earlier)
         method path operation
       = _add_operation_internal self method path operation.
Proof.
  intros Hctx Hguard Hid. split.
  - apply (asgi_app_operation _ scope ctx (Operation.operation_id operation));
      [done|done|done|]. simpl. apply lookup_insert_eq.
  - intros earlier method' path' Hsame.
    unfold _add_operation_internal. simpl.
    by rewrite Hsame, insert_insert_eq.
Qed.

(** X5.  Registering an operation changes nothing for a request that
    names another operation, names none, or has no routing context. *)
Theorem other_operations_unaffected (self : AsyncAsgiApp)
    (method path : string) (operation : AsyncOperation) (scope : Scope) :
  (routing_context scope ≫= operation_id)
  <> Some (Operation.operation_id operation) ->
  asgi_app (_add_operation_internal self method path operation) scope
  = asgi_app self scope.
Proof.
  intros Hother. rewrite !asgi_app_unfold. unfold dispatch. simpl.
  destruct (routing_context scope) as [ctx|]; [|done]. simpl in Hother.
  assert (Hsame :
    operation_or_route
      (<[Operation.operation_id operation := operation]> (operations self))
      (router self) scope ctx
    = operation_or_route (operations self) (router self) scope ctx).
  { unfold operation_or_route.
    destruct (operation_id ctx) as [key|]; [|done]. simpl.
    rewrite lookup_insert_ne; [done|]. congruence. }
  by rewrite Hsame.
Qed.

(** X6.  After [add_api], a request whose routing context names the
    base path of the API is delegated to it, provided that base path is
    not the application's own. *)
Theorem added_api_is_delegated_to (self api : AsyncAsgiApp) (scope : Scope)
    (ctx : RoutingContext) :
  routing_context scope = Some ctx ->
  api_base_path ctx = Some (base_path api) ->
  base_path api <> base_path self ->
  asgi_app (add_api self api) scope =
  mkRun [SubApplication (base_path api) (events (__call__ api scope))]
    (outcome (__call__ api scope)).
Proof.
  intros Hctx Hkey Hne.
  apply (asgi_app_delegate _ scope ctx); [done|done| |done].
  simpl. apply lookup_insert_eq.
Qed.

(** X7.  An API whose base path is the application's own is never
    reached: adding it changes the outcome of no request. *)
Theorem api_at_own_base_path_is_never_reached (self api : AsyncAsgiApp)
    (scope : Scope) :
  base_path api = base_path self ->
  asgi_app (add_api self api) scope = asgi_app self scope.
Proof.
  intros Hsame. rewrite !asgi_app_unfold. unfold dispatch. simpl.
  destruct (routing_context scope) as [ctx|]; [|done].
  destruct (api_base_path ctx) as [key|]; [|done].
  rewrite !lookup_fmap.
  destruct (decide (key = base_path self)) as [->|Hne].
  - rewrite String.eqb_refl. simpl.
    by destruct (_ !! base_path self), (_ !! base_path self).
  - rewrite lookup_insert_ne; [done|]. congruence.
Qed.

(** X8.  Adding an API changes nothing for a request that names another
    base path, names none, or has no routing context. *)
Theorem other_base_paths_unaffected (self api : AsyncAsgiApp)
    (scope : Scope) :
  (routing_context scope ≫= api_base_path) <> Some (base_path api) ->
  asgi_app (add_api self api) scope = asgi_app self scope.
Proof.
  intros Hother. rewrite !asgi_app_unfold. unfold dispatch. simpl.
  destruct (routing_context scope) as [ctx|]; [|done]. simpl in Hother.
  destruct (api_base_path ctx) as [key|]; [|done].
  rewrite !lookup_fmap, lookup_insert_ne; [done|]. congruence.
Qed.

(** X9.  A manual route never shadows the specification: after
    [add_url_rule], a request that is delegated or that names an
    operation, registered or not, has the outcome it had before. *)
Theorem manual_route_does_not_shadow (self app : AsyncAsgiApp)
    (rule : string) (endpoint : option string) (view_func : option Callable)
    (options : Options) (scope : Scope) (ctx : RoutingContext) :
  add_url_rule self rule endpoint view_func options = Ok app ->
  routing_context scope = Some ctx ->
  delegation_guard self ctx = true \/ operation_id ctx <> None ->
  asgi_app app scope = asgi_app self scope.
Proof.
  unfold add_url_rule. intros Hadd Hctx Hcase.
  destruct (opt_name options); [discriminate|].
  destruct (Router_add_route _ _ _) as [r|e]; simpl in Hadd; [|discriminate].
  injection Hadd as <-. by apply asgi_app_router_irrelevant with ctx.
Qed.

(** X10.  Without delegation the sub-applications play no part: a base
    path that is unregistered, or the application's own, is ignored,
    and the request is handled as if no sub-application existed. *)
Theorem unmatched_base_path_is_ignored (self : AsyncAsgiApp) (scope : Scope)
    (ctx : RoutingContext) :
  routing_context scope = Some ctx ->
  delegation_guard self ctx = false ->
  asgi_app self scope
  = asgi_app (mkApp ∅ (operations self) (router self) (base_path self)) scope.
Proof.
  intros Hctx Hguard.
  rewrite (asgi_app_otherwise self scope ctx Hctx Hguard).
  rewrite (asgi_app_otherwise (mkApp ∅ _ _ _) scope ctx Hctx); [done|].
  unfold delegation_guard. simpl.
  destruct (api_base_path ctx) as [key|]; [|done].
  rewrite lookup_empty. rewrite bool_decide_eq_false_2; [done|].
  by intros [? ?].
Qed.

(** X12.  A request that was delegated is not delegated again: the API
    it reaches is stored under its own base path, which is the base
    path the routing context names, so the API dispatches on its own
    operations and router whatever sub-applications it has. *)
Theorem delegated_request_stays_in_api (self api : AsyncAsgiApp)
    (scope : Scope) (ctx : RoutingContext) (key : string) :
  routing_context scope = Some ctx ->
  api_base_path ctx = Some key ->
  apis self !! key = Some api ->
  base_path api = key ->
  key <> base_path self ->
  delegation_guard api ctx = false
  /\ asgi_app api scope
     = operation_or_route (operations api) (router api) scope ctx
  /\ exists inner,
       asgi_app self scope
       = mkRun [SubApplication key inner]
           (_ ← outcome (operation_or_route (operations api) (router api)
                           scope ctx); Ok VNone)
       /\ omap action_of inner
          = actions (operation_or_route (operations api) (router api)
                       scope ctx).
Proof.
  intros Hctx Hkey Hapi Hbase Hne.
  assert (Hguard : delegation_guard api ctx = false).
  { unfold delegation_guard. rewrite Hkey, Hbase, String.eqb_refl.
    by rewrite andb_false_r. }
  pose proof (asgi_app_otherwise api scope ctx Hctx Hguard) as Hin.
  split; [done|split; [done|]].
  rewrite (asgi_app_delegate self scope ctx key api Hctx Hkey Hapi Hne).
  unfold __call__. rewrite Hin.
  set (run := operation_or_route _ _ _ _).
  exists (events (_ ← run; mret VNone)). split.
  - f_equal. unfold mbind, run_bind. by destruct (outcome run).
  - unfold actions, mbind, run_bind.
    destruct (outcome run); simpl; [|done]. by rewrite app_nil_r.
Qed.

(** X13.  The sub-applications of an application stay keyed by their
    base paths: none are registered at construction, and [add_api],
    [_add_operation_internal], [add_url_rule] and the decorator of
    [route] keep it so. *)
Theorem registration_keeps_apis_keyed (self : AsyncAsgiApp) :
  keyed_by_base_path self ->
  (forall api, keyed_by_base_path (add_api self api))
  /\ (forall method path operation,
        keyed_by_base_path (_add_operation_internal self method path operation))
  /\ (forall rule endpoint view_func options app,
        add_url_rule self rule endpoint view_func options = Ok app ->
        keyed_by_base_path app)
  /\ (forall rule kwargs func app,
        route self rule kwargs func = Ok (app, func) ->
        keyed_by_base_path app).
Proof.
  intros Hkeyed. split; [|split; [|split]].
  - intros api key api'. simpl. rewrite lookup_insert.
    case_decide; [by intros [= <-]|by apply Hkeyed].
  - intros method path operation key api'. simpl. by apply Hkeyed.
  - intros rule endpoint view_func options app. unfold add_url_rule.
    destruct (opt_name options); [discriminate|].
    destruct (Router_add_route _ _ _); simpl; [|discriminate].
    intros [= <-] key api'. simpl. by apply Hkeyed.
  - intros rule kwargs func app. unfold route.
    destruct (Router_add_route _ _ _); simpl; [|discriminate].
    intros [= <-] key api'. simpl. by apply Hkeyed.
Qed.

(** X14.  An application on which nothing was registered knows no
    operation: every request that names one raises
    [MissingAsyncOperation], whatever base path it names. *)
Theorem fresh_app_knows_no_operation (base : string) (scope : Scope)
    (ctx : RoutingContext) (key : string) :
  routing_context scope = Some ctx ->
  operation_id ctx = Some key ->
  exists args,
    asgi_app (__init__ base) scope
    = mkRun [] (Raise (MissingAsyncOperation 500 args)).
Proof.
  intros Hctx Hid. eexists.
  rewrite (asgi_app_otherwise _ scope ctx Hctx).
  - by apply operation_or_route_unknown with key.
  - unfold delegation_guard. simpl.
    destruct (api_base_path ctx); [|done].
    rewrite lookup_empty, bool_decide_eq_false_2; [done|]. by intros [? ?].
Qed.

End MoreDispatch.

Section MoreResponses.
Context {runtime : StarletteRuntime} {normalizer : BodyNormalizer}.

(** X15.  When a coroutine in the chain raises, [get_response] raises the
    same exception after the layers that returned; [_get_response]
    has no say in it. *)
Theorem get_response_propagates_await_error (getter getter' : ResponseGetter)
    (n : nat) (e : Exception) (mimetype : option string) :
  get_response (getter := getter) (nest n (VCoroutine (Raises e))) mimetype
  = Raise e
  /\ get_response (getter := getter') (nest n (VCoroutine (Raises e))) mimetype
     = get_response (getter := getter) (nest n (VCoroutine (Raises e))) mimetype.
Proof.
  unfold get_response. by rewrite await_all_nest_raises.
Qed.

(** X16.  [_build_response] returns exactly when the data is not a
    framework response, the normalization returns, and the class chosen
    for the normalized data can render it.  An exception of the
    normalization comes out as it is. *)
Theorem build_response_returns_iff (data : Value) (mimetype content_type : option string)
    (status_code : option Z) (headers : option Headers) :
  (is_ok (_build_response data mimetype content_type status_code headers) = true
   <-> _is_framework_response data = false
       /\ exists data' status' serialized,
            _prepare_body_and_status_code data mimetype status_code
            = Ok (data', status', serialized)
            /\ is_ok (render (if isinstance_dict data' || isinstance_list data'
                              then StarletteJSONResponse else StarletteResponse)
                        data') = true)
  /\ (forall e,
        _is_framework_response data = false ->
        _prepare_body_and_status_code data mimetype status_code = Raise e ->
        _build_response data mimetype content_type status_code headers = Raise e).
Proof.
  split; [split|].
  - destruct (_build_response data mimetype content_type status_code headers)
      as [r|e] eqn:Hbuild; [|discriminate]. intros _.
    apply build_response_Ok in Hbuild
      as (Hfw & data' & status' & serialized & Hprep & Hrender & ->).
    split; [done|]. by exists data', status', serialized.
  - intros (Hfw & data' & status' & serialized & Hprep & Hrender).
    destruct (build_response_returns data mimetype content_type status_code
                headers data' status' serialized Hfw Hprep Hrender) as [r ->].
    done.
  - intros e Hfw Hprep. unfold _build_response. by rewrite Hfw, Hprep.
Qed.

(** X17.  A canonical response that has a mimetype of its own, not
    empty, is converted the same way whatever fallback mimetype is
    given. *)
Theorem own_mimetype_overrides_fallback (c : ConnexionResponse Value)
    (m m' : option string) :
  truthy (mimetype c) = true ->
  _connexion_to_framework_response c m = _connexion_to_framework_response c m'.
Proof.
  intros Hown. unfold _connexion_to_framework_response, py_or.
  by rewrite Hown.
Qed.

(** X18.  The response built for a dict or a list always has a media
    type: the one resolved from the arguments or the normalization,
    and [application/json], the default of the JSON class, when nothing
    was resolved. *)
Theorem structured_payload_media_type data mimetype content_type status_code
    headers r data' status' serialized :
  _build_response data mimetype content_type status_code headers = Ok r ->
  _prepare_body_and_status_code data mimetype status_code
  = Ok (data', status', serialized) ->
  isinstance_dict data' || isinstance_list data' = true ->
  attr_media_type r =
    match first_truthy [content_type; mimetype] with
    | Some t => Some t
    | None =>
      match serialized with
      | Some t => Some t
      | None => Some "application/json"
      end
    end
  /\ attr_media_type r <> None.
Proof.
  intros Hbuild Hprep Hshape.
  apply build_response_Ok in Hbuild
    as (_ & d & s & t & Hprep' & _ & ->).
  rewrite Hprep in Hprep'. injection Hprep' as <- <- <-.
  unfold attr_media_type. cbn [init_media_type response_cls].
  rewrite Hshape.
  assert (Hinf : inferred_content_type data' = None) by (by destruct data').
  rewrite Hinf.
  destruct (first_truthy [content_type; mimetype]); [done|].
  by destruct serialized.
Qed.

(** X19.  The response built for a string or for bytes always has a
    media type as well, [text/plain] or [application/octet-stream] when
    nothing was resolved; for any other data that is not a dict or a
    list, nothing resolved means no media type. *)
Theorem scalar_payload_media_type data mimetype content_type status_code
    headers r data' status' :
  _build_response data mimetype content_type status_code headers = Ok r ->
  _prepare_body_and_status_code data mimetype status_code
  = Ok (data', status', None) ->
  first_truthy [content_type; mimetype] = None ->
  isinstance_dict data' || isinstance_list data' = false ->
  attr_media_type r = inferred_content_type data'
  /\ (attr_media_type r = None <-> data' = VNone).
Proof.
  intros Hbuild Hprep Hnone Hshape.
  pose proof Hbuild as Hok.
  apply build_response_Ok in Hok
    as (_ & d & s & t & Hprep' & Hrender & ->).
  rewrite Hprep in Hprep'. injection Hprep' as <- <- <-.
  unfold attr_media_type. cbn [init_media_type response_cls] in *.
  rewrite Hnone, Hshape in *. simpl in Hrender.
  destruct data'; simpl in *; try discriminate; split; try done;
    split; discriminate.
Qed.

End MoreResponses.

Section MoreExamples.
#[local] Existing Instance sample_runtime.
#[local] Existing Instance plain_normalizer.
#[local] Existing Instance connexion_routing.

Lemma handler_error_propagates_witness :
  routing_context (routed (named "fail")) = Some (named "fail")
  /\ delegation_guard fail_api (named "fail") = false
  /\ operation_id (named "fail") = Some "fail"
  /\ operations fail_api !! "fail" = Some failOp
  /\ Operation.__call__ failOp (routed (named "fail")) = Raise (HandlerError "boom")
  /\ asgi_app fail_api (routed (named "fail"))
     = mkRun [OperationCall "fail"] (Raise (HandlerError "boom")).
Proof.
  repeat (split; [reflexivity|]).
  exact (proj1 (handler_error_propagates fail_api (routed (named "fail"))
           (named "fail") "fail" failOp (HandlerError "boom")
           eq_refl eq_refl eq_refl eq_refl) eq_refl).
Defined.

Lemma non_response_result_raises_witness :
  routing_context (routed (named "greet")) = Some (named "greet")
  /\ delegation_guard greet_api (named "greet") = false
  /\ operations greet_api !! "greet" = Some greetOp
  /\ Operation.__call__ greetOp (routed (named "greet")) = Ok (nest 0 (VStr "hello"))
  /\ iscoroutine (VStr "hello") = false
  /\ exists msg,
       asgi_app greet_api (routed (named "greet"))
       = mkRun (OperationCall "greet" :: replicate 0 Await) (Raise (TypeError msg)).
Proof.
  repeat (split; [reflexivity|]).
  apply (non_response_result_raises greet_api (routed (named "greet"))
           (named "greet") "greet" greetOp 0 (VStr "hello"));
    try reflexivity.
  intros r. discriminate.
Defined.

Lemma registered_operation_is_dispatched_witness :
  routing_context (routed (named "greet")) = Some (named "greet")
  /\ delegation_guard (__init__ "") (named "greet") = false
  /\ operation_id (named "greet") = Some (Operation.operation_id greetOp)
  /\ asgi_app (_add_operation_internal (__init__ "") "get" "/greet" greetOp)
       (routed (named "greet"))
     = (_ ← emit (OperationCall "greet");
        response ← lift (Operation.__call__ greetOp (routed (named "greet")));
        response ← await_loop response;
        call_response response).
Proof.
  repeat (split; [reflexivity|]).
  exact (proj1 (registered_operation_is_dispatched (__init__ "") "get" "/greet"
           greetOp (routed (named "greet")) (named "greet")
           eq_refl eq_refl eq_refl)).
Defined.

Lemma other_operations_unaffected_witness :
  (routing_context (routed (named "fail")) ≫= operation_id)
  <> Some (Operation.operation_id greetOp)
  /\ asgi_app (_add_operation_internal fail_api "get" "/greet" greetOp)
       (routed (named "fail"))
     = asgi_app fail_api (routed (named "fail")).
Proof.
  assert (Hother : (routing_context (routed (named "fail")) ≫= operation_id)
                   <> Some (Operation.operation_id greetOp))
    by (vm_compute; discriminate).
  split; [exact Hother|].
  exact (other_operations_unaffected fail_api "get" "/greet" greetOp
           (routed (named "fail")) Hother).
Defined.

Lemma added_api_is_delegated_to_witness :
  routing_context (routed pets_request) = Some pets_request
  /\ api_base_path pets_request = Some (base_path pets_api)
  /\ base_path pets_api <> base_path (__init__ "")
  /\ asgi_app (add_api (__init__ "") pets_api) (routed pets_request)
     = mkRun [SubApplication (base_path pets_api)
                (events (__call__ pets_api (routed pets_request)))]
         (outcome (__call__ pets_api (routed pets_request))).
Proof.
  assert (Hne : base_path pets_api <> base_path (__init__ "")) by discriminate.
  split; [reflexivity|split; [reflexivity|split; [exact Hne|]]].
  exact (added_api_is_delegated_to (__init__ "") pets_api (routed pets_request)
           pets_request eq_refl eq_refl Hne).
Defined.

Lemma api_at_own_base_path_is_never_reached_witness :
  base_path ok_api = base_path gateway
  /\ asgi_app (add_api gateway ok_api)
       (routed (mkRoutingContext (Some "") (Some "sayOk")))
     = asgi_app gateway (routed (mkRoutingContext (Some "") (Some "sayOk"))).
Proof.
  split; [reflexivity|].
  exact (api_at_own_base_path_is_never_reached gateway ok_api _ eq_refl).
Defined.

Lemma other_base_paths_unaffected_witness :
  (routing_context (routed no_operation) ≫= api_base_path)
  <> Some (base_path pets_api)
  /\ asgi_app (add_api (__init__ "") pets_api) (routed no_operation)
     = asgi_app (__init__ "") (routed no_operation).
Proof.
  assert (Hother : (routing_context (routed no_operation) ≫= api_base_path)
                   <> Some (base_path pets_api))
    by (vm_compute; discriminate).
  split; [exact Hother|].
  exact (other_base_paths_unaffected (__init__ "") pets_api
           (routed no_operation) Hother).
Defined.

Lemma manual_route_does_not_shadow_witness :
  add_url_rule gateway "/" None (Some index) no_options = Ok gateway_with_index
  /\ routing_context (routed pets_request) = Some pets_request
  /\ delegation_guard gateway pets_request = true
  /\ asgi_app gateway_with_index (routed pets_request)
     = asgi_app gateway (routed pets_request).
Proof.
  repeat (split; [reflexivity|]).
  exact (manual_route_does_not_shadow gateway gateway_with_index "/" None
           (Some index) no_options (routed pets_request) pets_request
           eq_refl eq_refl (or_introl eq_refl)).
Defined.

Lemma unmatched_base_path_is_ignored_witness :
  routing_context (routed elsewhere) = Some elsewhere
  /\ delegation_guard gateway elsewhere = false
  /\ asgi_app gateway (routed elsewhere)
     = asgi_app (mkApp ∅ (operations gateway) (router gateway)
                   (base_path gateway)) (routed elsewhere).
Proof.
  repeat (split; [reflexivity|]).
  exact (unmatched_base_path_is_ignored gateway (routed elsewhere) elsewhere
           eq_refl eq_refl).
Defined.

Lemma delegated_request_stays_in_api_witness :
  routing_context (routed pets_request) = Some pets_request
  /\ apis gateway !! "/v1" = Some pets_api
  /\ base_path pets_api = "/v1"
  /\ "/v1" <> base_path gateway
  /\ delegation_guard pets_api pets_request = false.
Proof.
  assert (Hne : "/v1" <> base_path gateway) by discriminate.
  repeat (split; [reflexivity|]).
  split; [exact Hne|].
  exact (proj1 (delegated_request_stays_in_api gateway pets_api
           (routed pets_request) pets_request "/v1"
           eq_refl eq_refl eq_refl eq_refl Hne)).
Defined.

Lemma registration_keeps_apis_keyed_witness :
  keyed_by_base_path (__init__ "")
  /\ keyed_by_base_path (add_api (__init__ "") pets_api).
Proof.
  assert (Hfresh : keyed_by_base_path (__init__ "")).
  { intros key api Hlookup. simpl in Hlookup.
    rewrite lookup_empty in Hlookup. discriminate Hlookup. }
  split; [exact Hfresh|].
  exact (proj1 (registration_keeps_apis_keyed (__init__ "") Hfresh) pets_api).
Defined.

Lemma fresh_app_knows_no_operation_witness :
  routing_context (routed pets_request) = Some pets_request
  /\ operation_id pets_request = Some "getPet"
  /\ exists args,
       asgi_app (__init__ "") (routed pets_request)
       = mkRun [] (Raise (MissingAsyncOperation 500 args)).
Proof.
  repeat (split; [reflexivity|]).
  exact (fresh_app_knows_no_operation "" (routed pets_request) pets_request
           "getPet" eq_refl eq_refl).
Defined.

Lemma own_mimetype_overrides_fallback_witness :
  truthy (mimetype html_response) = true
  /\ _connexion_to_framework_response html_response None
     = _connexion_to_framework_response html_response (Some "application/json").
Proof.
  split; [reflexivity|].
  exact (own_mimetype_overrides_fallback html_response None
           (Some "application/json") eq_refl).
Defined.

Lemma structured_payload_media_type_witness :
  _build_response (VList [VInt 1; VInt 2]) None None None None
  = Ok (mkResponse StarletteJSONResponse (VList [VInt 1; VInt 2])
          (Some 200%Z) None None)
  /\ _prepare_body_and_status_code (VList [VInt 1; VInt 2]) None None
     = Ok (VList [VInt 1; VInt 2], Some 200%Z, None)
  /\ attr_media_type (mkResponse StarletteJSONResponse (VList [VInt 1; VInt 2])
                        (Some 200%Z) None None)
     <> None.
Proof.
  repeat (split; [reflexivity|]).
  exact (proj2 (structured_payload_media_type (VList [VInt 1; VInt 2]) None
           None None None _ _ _ _ eq_refl eq_refl eq_refl)).
Defined.

Lemma scalar_payload_media_type_witness :
  _build_response (VBytes (list_byte_of_string "hi")) None None None None
  = Ok (mkResponse StarletteResponse (VBytes (list_byte_of_string "hi"))
          (Some 200%Z) (Some "application/octet-stream") None)
  /\ _prepare_body_and_status_code (VBytes (list_byte_of_string "hi")) None None
     = Ok (VBytes (list_byte_of_string "hi"), Some 200%Z, None)
  /\ attr_media_type (mkResponse StarletteResponse
                        (VBytes (list_byte_of_string "hi"))
                        (Some 200%Z) (Some "application/octet-stream") None)
     = inferred_content_type (VBytes (list_byte_of_string "hi")).
Proof.
  repeat (split; [reflexivity|]).
  exact (proj1 (scalar_payload_media_type (VBytes (list_byte_of_string "hi"))
           None None None None _ _ _ eq_refl eq_refl eq_refl eq_refl)).
Defined.

End MoreExamples.
